(** * nerfstudio/model_components/ray_generators.py

    A shallow embedding of the [RayGenerator] adapter: the torch indexing
    it relies on, the module-level name binding of the file, the
    constructor and [forward].

    Conventions.
    - int64 index tensors are lists of [Z]; no arithmetic is done on them
      apart from torch's own wrap of a negative index. Indexing is the one
      of the CPU kernel, which raises on an index that is out of bounds.
    - a float tensor has an abstract element type [elt]; the Python float
      [pixel_offset] is a binary64 [float].
    - an exception is a value of [exn]; code that can raise returns
      [exn + A].
    - the collaborators ([Cameras], [CameraOptimizer]) are not part of the
      file: they are the fields of the class [Collaborators], each method
      a computation over the collaborators' own persistent state. *)

From Stdlib Require Import ZArith List String Bool Lia Floats.
Import ListNotations.
Local Open Scope Z_scope.

(** ** Exceptions *)

Inductive exn : Type :=
| IndexError (value : Z) (dim : nat) (size : nat)
    (* torch: "index VALUE is out of bounds for dimension DIM with size SIZE" *)
| UnpackError
    (* Python: unpacking a value that is not a 2-tuple *)
| NameError (name : string)
    (* Python: "name NAME is not defined" *)
| Raised (what : string).
    (* anything else a collaborator raises *)

Definition result (A : Type) : Type := (exn + A)%type.

Definition is_ok {A : Type} (r : result A) : bool :=
  match r with inr _ => true | inl _ => false end.

(** ** Torch indexing *)

Module Torch.

(** [t.unsqueeze(-1)] on a 1-D tensor: shape (N) becomes (N, 1). *)
Definition unsqueeze_last (t : list Z) : list (list Z) :=
  map (fun v => [v]) t.

(** The three column slices [t[:, 0]], [t[:, 1]], [t[:, 2]] of a tensor of
    shape (N, 3). *)
Definition column0 (t : list (Z * Z * Z)) : list Z := map (fun r => fst (fst r)) t.
Definition column1 (t : list (Z * Z * Z)) : list Z := map (fun r => snd (fst r)) t.
Definition column2 (t : list (Z * Z * Z)) : list Z := map (fun r => snd r) t.

Section Table.

Variable elt : Type.

(** A float tensor of shape (rows, cols, 2): the shape and the pair stored
    at each position below it. *)
Record coord_table : Type := {
  rows : nat;
  cols : nat;
  entry : nat -> nat -> elt * elt
}.

(** One index of an advanced-indexing expression, as the CPU index kernel
    treats it: accepted when [-size <= value < size], a negative value has
    [size] added. *)
Definition normalize_index (value : Z) (dim size : nat) : result nat :=
  if (- Z.of_nat size <=? value) && (value <? Z.of_nat size) then
    inr (Z.to_nat (if value <? 0 then value + Z.of_nat size else value))
  else
    inl (IndexError value dim size).

(** [t[y, x]] for one pair of scalars: dimension 0 is checked first. *)
Definition index_pair (t : coord_table) (y x : Z) : result (elt * elt) :=
  match normalize_index y 0 (rows t) with
  | inl e => inl e
  | inr i =>
      match normalize_index x 1 (cols t) with
      | inl e => inl e
      | inr j => inr (entry t i j)
      end
  end.

(** [t[y, x]] for two 1-D index tensors of one length: the result has one
    pair per position; the first position that is out of bounds raises.
    [forward] takes both index tensors from the columns of one (N, 3)
    tensor, so the lengths agree and no broadcasting is involved. *)
Fixpoint index_gather (t : coord_table) (y x : list Z) : result (list (elt * elt)) :=
  match y, x with
  | yi :: y', xi :: x' =>
      match index_pair t yi xi with
      | inl e => inl e
      | inr p =>
          match index_gather t y' x' with
          | inl e => inl e
          | inr ps => inr (p :: ps)
          end
      end
  | _, _ => inr []
  end.

(** [t - s] for a float tensor of shape (N, 2) and a Python float [s]:
    the scalar is subtracted from every element. *)
Definition sub_scalar_all (sub : elt -> float -> elt) (t : list (elt * elt)) (s : float)
  : list (elt * elt) :=
  map (fun p => (sub (fst p) s, sub (snd p) s)) t.

End Table.

Arguments rows {elt} _.
Arguments cols {elt} _.
Arguments entry {elt} _ _ _.
Arguments Build_coord_table {elt} _ _ _.
Arguments normalize_index _ _ _ : assert.
Arguments index_pair {elt} _ _ _.
Arguments index_gather {elt} _ _ _.
Arguments sub_scalar_all {elt} _ _ _.

End Torch.

(** ** Computations over a store

    A computation reads and may change a store, and either returns a value
    or raises; what was changed before an exception stays changed. *)

Module Py.

Section Monad.

Variable store : Type.

Definition M (A : Type) : Type := store -> result A * store.

Definition ret {A : Type} (a : A) : M A := fun s => (inr a, s).

Definition bind {A B : Type} (m : M A) (k : A -> M B) : M B :=
  fun s =>
    match m s with
    | (inr a, s') => k a s'
    | (inl e, s') => (inl e, s')
    end.

(** Read something off the store. *)
Definition gets {A : Type} (f : store -> A) : M A := fun s => (inr (f s), s).

(** An operation that may raise but touches no object. *)
Definition lift {A : Type} (r : result A) : M A := fun s => (r, s).

End Monad.

Arguments ret {store A} _ _.
Arguments bind {store A B} _ _ _.
Arguments gets {store A} _ _.
Arguments lift {store A} _ _.

End Py.

Declare Scope py_scope.
Delimit Scope py_scope with py.
Notation "x <- m ;; k" := (Py.bind m (fun x => k))
  (at level 100, m at next level, right associativity) : py_scope.
Notation "' p <- m ;; k" := (Py.bind m (fun p => k))
  (at level 100, p pattern, m at next level, right associativity) : py_scope.

(** ** Names bound when the module is defined

    Importing the file runs its top-level statements in order. A [def]
    evaluates the defaults and then the annotations of its parameters and
    of its return value when it is executed (the file has no
    [from __future__ import annotations]); its body is not run. A name is
    looked up in the class namespace, then the module globals, then the
    builtins. *)

Module PyModule.

Local Set Warnings "-register-all".

Inductive expr : Type :=
| Name (id : string)
| Attribute (value : expr) (attr : string)
| Subscript (value : expr) (slice : expr)
| Tuple (elts : list expr)
| Constant (repr : string).

Record param : Type := {
  arg : string;
  annotation : option expr;
  default : option expr
}.

Inductive stmt : Type :=
| ImportFrom (module : string) (names : list string)
| Expr (value : expr)
| AnnAssign (target : string) (ann : expr)
| FunctionDef (name : string) (args : list param) (returns : option expr)
| ClassDef (name : string) (bases : list expr) (body : list stmt).

Definition bound (id : string) (ns : list string) : bool :=
  existsb (String.eqb id) ns.

(** The first name, in evaluation order, that an expression loads and
    that is not bound. *)
Fixpoint unbound (ns : list string) (e : expr) : option string :=
  match e with
  | Name id => if bound id ns then None else Some id
  | Attribute value _ => unbound ns value
  | Subscript value slice =>
      match unbound ns value with
      | Some id => Some id
      | None => unbound ns slice
      end
  | Tuple elts =>
      (fix each (es : list expr) : option string :=
         match es with
         | [] => None
         | e' :: es' =>
             match unbound ns e' with
             | Some id => Some id
             | None => each es'
             end
         end) elts
  | Constant _ => None
  end.

Fixpoint unbound_any (ns : list string) (es : list expr) : option string :=
  match es with
  | [] => None
  | e :: es' =>
      match unbound ns e with
      | Some id => Some id
      | None => unbound_any ns es'
      end
  end.

Definition present (es : list (option expr)) : list expr :=
  flat_map (fun o => match o with Some e => [e] | None => [] end) es.

(** The expressions a [def] evaluates, in order: defaults, parameter
    annotations, return annotation. *)
Definition def_time (args : list param) (returns : option expr) : list expr :=
  present (map default args) ++ present (map annotation args) ++ present [returns].

(** Run one statement with [local] the namespace being filled and
    [outer] the namespaces behind it; the result is the new [local]. *)
Fixpoint exec_stmt (outer local : list string) (s : stmt) : result (list string) :=
  match s with
  | ImportFrom _ names => inr (rev names ++ local)
  | Expr value =>
      match unbound (local ++ outer) value with
      | Some id => inl (NameError id)
      | None => inr local
      end
  | AnnAssign _ ann =>
      match unbound (local ++ outer) ann with
      | Some id => inl (NameError id)
      | None => inr local
      end
  | FunctionDef name args returns =>
      match unbound_any (local ++ outer) (def_time args returns) with
      | Some id => inl (NameError id)
      | None => inr (name :: local)
      end
  | ClassDef name bases body =>
      match unbound_any (local ++ outer) bases with
      | Some id => inl (NameError id)
      | None =>
          match
            (fix block (ns : list string) (b : list stmt) : result (list string) :=
               match b with
               | [] => inr ns
               | s' :: b' =>
                   match exec_stmt (local ++ outer) ns s' with
                   | inl e => inl e
                   | inr ns' => block ns' b'
                   end
               end) ["__qualname__"; "__module__"]%string body
          with
          | inl e => inl e
          | inr _ => inr (name :: local)
          end
      end
  end.

Fixpoint exec_block (outer local : list string) (b : list stmt) : result (list string) :=
  match b with
  | [] => inr local
  | s :: b' =>
      match exec_stmt outer local s with
      | inl e => inl e
      | inr local' => exec_block outer local' b'
      end
  end.

(** The builtins an annotation or a default of this code base can name. *)
Definition builtins : list string :=
  ["bool"; "bytes"; "complex"; "dict"; "float"; "frozenset"; "int"; "list";
   "object"; "set"; "str"; "tuple"; "type"; "super"; "len"; "range";
   "isinstance"; "print"; "Exception"; "NotImplemented"; "Ellipsis"]%string.

Definition exec_module (m : list stmt) : result (list string) :=
  exec_block builtins ["__name__"; "__doc__"; "__file__"]%string m.

Definition plain (a : string) : param :=
  {| arg := a; annotation := None; default := None |}.
Definition annotated (a : string) (t : expr) : param :=
  {| arg := a; annotation := Some t; default := None |}.
Definition defaulted (a : string) (t : expr) (d : expr) : param :=
  {| arg := a; annotation := Some t; default := Some d |}.

(** Lines 18-23. *)
Definition imports : list stmt :=
  [ ImportFrom "jaxtyping" ["Int"];
    ImportFrom "torch" ["Tensor"; "nn"];
    ImportFrom "nerfstudio.cameras.camera_optimizers" ["CameraOptimizer"];
    ImportFrom "nerfstudio.cameras.cameras" ["Cameras"];
    ImportFrom "nerfstudio.cameras.rays" ["RayBundle"] ]%string.

(** Lines 45-47: the signature of [forward]. *)
Definition forward_returns : expr :=
  Subscript (Name "Union")
    (Tuple [ Name "RayBundle";
             Subscript (Name "Tuple")
               (Tuple [ Name "RayBundle";
                        Subscript (Name "Float")
                          (Tuple [Name "Tensor"; Constant "'num_rays 2'"]) ]) ])%string.

Definition forward_def : stmt :=
  FunctionDef "forward"
    [ plain "self";
      annotated "ray_indices"
        (Subscript (Name "Int") (Tuple [Name "Tensor"; Constant "'num_rays 3'"]));
      defaulted "resample" (Name "bool") (Constant "False") ]
    (Some forward_returns)%string.

(** Lines 26-70: the class statement. *)
Definition class_def (methods : list stmt) : stmt :=
  ClassDef "RayGenerator" [Attribute (Name "nn") "Module"]
    ([ Expr (Constant "'torch.nn Module for generating rays. ...'");
       AnnAssign "image_coords" (Name "Tensor");
       AnnAssign "pixel_offset" (Name "float");
       FunctionDef "__init__"
         [ plain "self";
           annotated "cameras" (Name "Cameras");
           annotated "pose_optimizer" (Name "CameraOptimizer");
           defaulted "pixel_offset" (Name "float") (Constant "0.5") ]
         (Some (Constant "None")) ]%string ++ methods).

(** The whole file. *)
Definition ray_generators : list stmt :=
  Expr (Constant "'Ray generator.'") :: imports ++ [class_def [forward_def]].

(** The file with the three names imported as well, for comparison. *)
Definition ray_generators_with (extra : list stmt) : list stmt :=
  Expr (Constant "'Ray generator.'") :: extra ++ imports ++ [class_def [forward_def]].

End PyModule.

Import Torch.
Local Open Scope py_scope.

(** ** The collaborators

    What [generate_rays] returns: a ray bundle, or a 2-tuple of a ray
    bundle and a float tensor of shape (N, 2). *)

Inductive rays_result (RayBundle elt : Type) : Type :=
| Rays (ray_bundle : RayBundle)
| RaysAndCoords (ray_bundle : RayBundle) (coords : list (elt * elt)).

Arguments Rays {RayBundle elt} _.
Arguments RaysAndCoords {RayBundle elt} _ _.

(** [a, b = v] *)
Definition unpack2 {RayBundle elt : Type} (v : rays_result RayBundle elt)
  : result (RayBundle * list (elt * elt)) :=
  match v with
  | RaysAndCoords ray_bundle coords => inr (ray_bundle, coords)
  | Rays _ => inl UnpackError
  end.

(** The interface the file consumes. [Cameras] and [CameraOptimizer] are
    references to the two objects; [heap] is whatever state they keep;
    every method may read and change it, and may raise. The index tensors
    a method is handed ([c] and [c.unsqueeze(-1)]) are views of the
    caller's tensor; a method is taken to read them only. *)
Class Collaborators : Type := {
  Cameras : Type;
  CameraOptimizer : Type;
  heap : Type;
  elt : Type;
  Transforms : Type;
  RayBundle : Type;
  (** [tensor - float], on one element *)
  tensor_sub : elt -> float -> elt;
  (** [cameras.get_image_coords(pixel_offset)] *)
  get_image_coords :
    Cameras -> float -> heap -> result (coord_table elt) * heap;
  (** [pose_optimizer(c)] *)
  optimizer_call :
    CameraOptimizer -> list Z -> heap -> result Transforms * heap;
  (** [cameras.generate_rays(camera_indices, coords, camera_opt_to_camera, resample)] *)
  generate_rays :
    Cameras -> list (list Z) -> list (elt * elt) -> Transforms -> bool ->
    heap -> result (rays_result RayBundle elt) * heap
}.

(** ** RayGenerator *)

Section RayGenerator.

Context {C : Collaborators}.

(** The attributes of an instance. *)
Record RayGenerator : Type := {
  cameras : Cameras;
  pixel_offset : float;
  pose_optimizer : CameraOptimizer;
  image_coords : coord_table elt
}.

(** [pixel_offset: float = 0.5] *)
Definition pixel_offset_default : float := 0.5%float.

(** Lines 38-43. The instance exists for the caller only when
    [get_image_coords] has returned. *)
Definition __init__ (cameras : Cameras) (pose_optimizer : CameraOptimizer)
    (pixel_offset : option float) : heap -> result RayGenerator * heap :=
  fun h =>
    let pixel_offset :=
      match pixel_offset with Some v => v | None => pixel_offset_default end in
    match get_image_coords cameras pixel_offset h with
    | (inr coords, h') =>
        (inr {| cameras := cameras;
                pixel_offset := pixel_offset;
                pose_optimizer := pose_optimizer;
                image_coords := coords |}, h')
    | (inl e, h') => (inl e, h')
    end.

(** What a call of [forward] can reach: the instance, the index tensor it
    is given, and the state of the collaborators. *)
Record store : Type := {
  self : RayGenerator;
  ray_indices : list (Z * Z * Z);
  world : heap
}.

Definition with_world (s : store) (h : heap) : store :=
  {| self := self s; ray_indices := ray_indices s; world := h |}.

(** A method call on a collaborator. *)
Definition call {A : Type} (f : heap -> result A * heap) : Py.M store A :=
  fun s => let (r, h) := f (world s) in (r, with_world s h).

(** Lines 66-70. *)
Definition forward_return (resample : bool)
    (ray_bundle_and_coords : rays_result RayBundle elt)
  : Py.M store (rays_result RayBundle elt) :=
  if resample then
    ' (ray_bundle, new_coords) <- Py.lift (unpack2 ray_bundle_and_coords) ;;
    offset <- Py.gets (fun s => pixel_offset (self s)) ;;
    let new_coords := sub_scalar_all tensor_sub new_coords offset in
    Py.ret (RaysAndCoords ray_bundle new_coords)
  else
    Py.ret ray_bundle_and_coords.

(** Lines 58-65. *)
Definition forward_delegate (resample : bool) (c : list Z) (coords : list (elt * elt))
  : Py.M store (rays_result RayBundle elt) :=
  optimizer <- Py.gets (fun s => pose_optimizer (self s)) ;;
  camera_opt_to_camera <- call (optimizer_call optimizer c) ;;
  cams <- Py.gets (fun s => cameras (self s)) ;;
  ray_bundle_and_coords <-
    call (generate_rays cams (unsqueeze_last c) coords camera_opt_to_camera resample) ;;
  forward_return resample ray_bundle_and_coords.

(** Lines 45-70. *)
Definition forward (resample : bool) : Py.M store (rays_result RayBundle elt) :=
  indices <- Py.gets ray_indices ;;
  let c := column0 indices in
  let y := column1 indices in
  let x := column2 indices in
  table <- Py.gets (fun s => image_coords (self s)) ;;
  coords <- Py.lift (index_gather table y x) ;;
  forward_delegate resample c coords.

(** The pair the cache holds for a row and a column that are in bounds. *)
Definition cache_at (table : coord_table elt) (r : Z * Z * Z) : elt * elt :=
  entry table (Z.to_nat (snd (fst r))) (Z.to_nat (snd r)).

(** The pair the cache holds once a negative row or column has had the
    size of its dimension added. *)
Definition wrap (size : nat) (v : Z) : nat :=
  Z.to_nat (if v <? 0 then Z.of_nat size + v else v).

Definition cache_at_wrapped (table : coord_table elt) (r : Z * Z * Z) : elt * elt :=
  entry table (wrap (rows table) (snd (fst r))) (wrap (cols table) (snd r)).

Definition in_bounds (table : coord_table elt) (r : Z * Z * Z) : Prop :=
  0 <= snd (fst r) < Z.of_nat (rows table) /\ 0 <= snd r < Z.of_nat (cols table).

Definition in_wrapped_bounds (table : coord_table elt) (r : Z * Z * Z) : Prop :=
  - Z.of_nat (rows table) <= snd (fst r) < Z.of_nat (rows table) /\
  - Z.of_nat (cols table) <= snd r < Z.of_nat (cols table).

(** The ray bundle of a returned value. *)
Definition bundle_of (v : rays_result RayBundle elt) : RayBundle :=
  match v with
  | Rays ray_bundle => ray_bundle
  | RaysAndCoords ray_bundle _ => ray_bundle
  end.

(** The row and the column of an index triple. *)
Definition row_col (r : Z * Z * Z) : Z * Z := (snd (fst r), snd r).

(** What [forward] gathers in a store. *)
Definition gathered (s : store) : result (list (elt * elt)) :=
  index_gather (image_coords (self s)) (column1 (ray_indices s)) (column2 (ray_indices s)).

(** The contract of [generate_rays]: a pair when resampling, a bare
    bundle otherwise. *)
Definition generate_rays_contract : Prop :=
  forall cams camera_indices coords corrections resample h v h',
    generate_rays cams camera_indices coords corrections resample h = (inr v, h') ->
    match v with
    | RaysAndCoords _ _ => resample = true
    | Rays _ => resample = false
    end.

(** Every way a call of [forward] can go. *)
Inductive outcome (resample : bool) (s : store) : result (rays_result RayBundle elt) * store -> Prop :=
| gather_failed (e : exn) :
    gathered s = inl e ->
    outcome resample s (inl e, s)
| optimizer_failed (coords : list (elt * elt)) (e : exn) (h1 : heap) :
    gathered s = inr coords ->
    optimizer_call (pose_optimizer (self s)) (column0 (ray_indices s)) (world s)
      = (inl e, h1) ->
    outcome resample s (inl e, with_world s h1)
| rays_failed (coords : list (elt * elt)) (tr : Transforms) (e : exn) (h1 h2 : heap) :
    gathered s = inr coords ->
    optimizer_call (pose_optimizer (self s)) (column0 (ray_indices s)) (world s)
      = (inr tr, h1) ->
    generate_rays (cameras (self s)) (unsqueeze_last (column0 (ray_indices s)))
      coords tr resample h1 = (inl e, h2) ->
    outcome resample s (inl e, with_world s h2)
| rays_returned (coords : list (elt * elt)) (tr : Transforms)
    (v : rays_result RayBundle elt) (h1 h2 : heap) :
    gathered s = inr coords ->
    optimizer_call (pose_optimizer (self s)) (column0 (ray_indices s)) (world s)
      = (inr tr, h1) ->
    generate_rays (cameras (self s)) (unsqueeze_last (column0 (ray_indices s)))
      coords tr resample h1 = (inr v, h2) ->
    outcome resample s (forward_return resample v (with_world s h2)).

(** A computation that leaves the instance and the index tensor as they
    were, whatever it does to the collaborators. *)
Definition preserves {A : Type} (m : Py.M store A) : Prop :=
  forall s, self (snd (m s)) = self s /\ ray_indices (snd (m s)) = ray_indices s.

End RayGenerator.

(** ** The collaborators as the specification describes them

    [nerfstudio.cameras.cameras.Cameras] and
    [nerfstudio.cameras.camera_optimizers.CameraOptimizer] are not part of
    the file. The camera mathematics stays abstract: the fields of
    [camera_model]. *)

Record camera_model : Type := {
  pixel : Type;
  ray : Type;
  transform : Type;
  num_cameras : nat;
  image_height : nat;
  image_width : nat;
  pixel_sub : pixel -> float -> pixel;
  (** the sample location of pixel (row, col) for an offset *)
  sample_location : float -> nat -> nat -> pixel * pixel;
  (** the correction transform of a camera *)
  correction : Z -> transform;
  (** one ray, from the resample flag, a camera, a location, a correction *)
  cast_ray : bool -> Z -> pixel * pixel -> transform -> ray;
  (** the perturbed location returned when resampling *)
  perturb : pixel * pixel -> pixel * pixel
}.

Section SpecModel.

Variable m : camera_model.

Definition valid_camera (c : Z) : bool :=
  (0 <=? c) && (c <? Z.of_nat (num_cameras m)).

(** Modelled from the spec: [Cameras.get_image_coords], missing from the
    sources. "a precomputed grid of per-pixel image coordinates for a
    given sub-pixel offset", of shape (rows, columns, 2), "a pure function
    of offset and image geometry". *)
Definition spec_get_image_coords (_ : unit) (offset : float) (h : unit)
  : result (coord_table (pixel m)) * unit :=
  (inr {| rows := image_height m;
          cols := image_width m;
          entry := sample_location m offset |}, h).

(** Modelled from the spec: calling the [CameraOptimizer], missing from
    the sources. "mapping a camera index to a correction transform";
    queried "with the camera-id sequence to obtain, per ray, a correction
    transform"; an invalid camera id is for the collaborator "to detect
    and fail on". *)
Fixpoint spec_corrections (c : list Z) : result (list (transform m)) :=
  match c with
  | [] => inr []
  | ci :: c' =>
      if valid_camera ci then
        match spec_corrections c' with
        | inl e => inl e
        | inr ts => inr (correction m ci :: ts)
        end
      else inl (IndexError ci 0 (num_cameras m))
  end.

Definition spec_optimizer_call (_ : unit) (c : list Z) (h : unit)
  : result (list (transform m)) * unit :=
  (spec_corrections c, h).

(** Modelled from the spec: [Cameras.generate_rays], missing from the
    sources. The ray bundle is "a batch of rays ... aligned one-to-one
    with the input index batch": ray i is made from camera id i, location
    i and correction i; an invalid camera id is for the collaborator "to
    detect and fail on". *)
Fixpoint spec_rays (resample : bool) (camera_indices : list (list Z))
    (coords : list (pixel m * pixel m)) (corrections : list (transform m))
  : result (list (ray m)) :=
  match camera_indices, coords, corrections with
  | [], [], [] => inr []
  | [ci] :: cs, p :: ps, t :: ts =>
      if valid_camera ci then
        match spec_rays resample cs ps ts with
        | inl e => inl e
        | inr rs => inr (cast_ray m resample ci p t :: rs)
        end
      else inl (IndexError ci 0 (num_cameras m))
  | _, _, _ => inl (Raised "shape mismatch")
  end.

(** Modelled from the spec: the value of [Cameras.generate_rays]. "only
    if resample=true the camera collection additionally returns perturbed
    coordinates". *)
Definition spec_generate_rays (_ : unit) (camera_indices : list (list Z))
    (coords : list (pixel m * pixel m)) (corrections : list (transform m))
    (resample : bool) (h : unit)
  : result (rays_result (list (ray m)) (pixel m)) * unit :=
  match spec_rays resample camera_indices coords corrections with
  | inl e => (inl e, h)
  | inr rs =>
      (inr (if resample then RaysAndCoords rs (map (perturb m) coords) else Rays rs), h)
  end.

#[local] Instance spec_collaborators : Collaborators := {|
  Cameras := unit;
  CameraOptimizer := unit;
  heap := unit;
  elt := pixel m;
  Transforms := list (transform m);
  RayBundle := list (ray m);
  tensor_sub := pixel_sub m;
  get_image_coords := spec_get_image_coords;
  optimizer_call := spec_optimizer_call;
  generate_rays := spec_generate_rays
|}.

(** A camera id within the collection, a row and a column within the
    image. *)
Definition valid_triple (table : coord_table (pixel m)) (r : Z * Z * Z) : Prop :=
  0 <= fst (fst r) < Z.of_nat (num_cameras m) /\ in_bounds table r.

(** The ray made from one index triple. *)
Definition ray_of (resample : bool) (table : coord_table (pixel m)) (r : Z * Z * Z)
  : ray m :=
  cast_ray m resample (fst (fst r)) (cache_at table r) (correction m (fst (fst r))).

End SpecModel.

(** ** A small scene *)

Module Scene.

Definition of_nat (n : nat) : float :=
  PrimFloat.of_uint63 (Uint63.of_Z (Z.of_nat n)).

(** Two cameras, images of 4 rows and 8 columns; a ray is its camera id
    and its location; resampling moves a location by a quarter pixel. *)
Definition model : camera_model := {|
  pixel := float;
  ray := Z * (float * float);
  transform := unit;
  num_cameras := 2;
  image_height := 4;
  image_width := 8;
  pixel_sub := PrimFloat.sub;
  sample_location := fun offset i j =>
    (PrimFloat.add (of_nat j) offset, PrimFloat.add (of_nat i) offset);
  correction := fun _ => tt;
  cast_ray := fun _ c p _ => (c, p);
  perturb := fun p => (PrimFloat.add (fst p) 0.25, PrimFloat.add (snd p) 0.25)
|}.

#[local] Existing Instance spec_collaborators.

Definition generator (offset : float) : RayGenerator (C := spec_collaborators model) :=
  @Build_RayGenerator (spec_collaborators model) tt offset tt
    {| rows := 4; cols := 8; entry := sample_location model offset |}.

Definition scene (indices : list (Z * Z * Z)) : store (C := spec_collaborators model) :=
  @Build_store (spec_collaborators model) (generator 0.5) indices tt.

(** A collection whose [generate_rays] returns a bare bundle whatever
    the flag, and one whose [generate_rays] always returns a pair. *)
Definition bare_collaborators : Collaborators := {|
  Cameras := unit;
  CameraOptimizer := unit;
  heap := unit;
  elt := float;
  Transforms := unit;
  RayBundle := nat;
  tensor_sub := PrimFloat.sub;
  get_image_coords := fun _ offset h =>
    (inr {| rows := 4; cols := 8; entry := sample_location model offset |}, h);
  optimizer_call := fun _ _ h => (inr tt, h);
  generate_rays := fun _ c _ _ _ h => (inr (Rays (List.length c)), h)
|}.

End Scene.

(** ** Calls in sequence, and stores that differ in one place *)

Section Calls.

Context {C : Collaborators}.

(** The store of a call on another index tensor. *)
Definition with_indices (s : store) (indices : list (Z * Z * Z)) : store :=
  {| self := self s; ray_indices := indices; world := world s |}.

(** The store after [rg.pixel_offset = offset]: the other attributes,
    the cache among them, stay. *)
Definition with_pixel_offset (s : store) (offset : float) : store :=
  {| self := {| cameras := cameras (self s);
                pixel_offset := offset;
                pose_optimizer := pose_optimizer (self s);
                image_coords := image_coords (self s) |};
     ray_indices := ray_indices s;
     world := world s |}.

(** What a sequence of calls of [forward] leaves behind, each call on its
    own index tensor and flag, whether it returns or raises. *)
Fixpoint after_calls (calls : list (list (Z * Z * Z) * bool)) (s : store) : store :=
  match calls with
  | [] => s
  | (indices, resample) :: rest =>
      after_calls rest (snd (forward resample (with_indices s indices)))
  end.

(** An index triple with a negative row or column replaced by the
    position it wraps to. *)
Definition normalize_triple (table : coord_table elt) (r : Z * Z * Z) : Z * Z * Z :=
  (fst (fst r),
   Z.of_nat (wrap (rows table) (snd (fst r))),
   Z.of_nat (wrap (cols table) (snd r))).

End Calls.

(** ** Collaborators that raise *)

Module Broken.

(** A camera collection whose [get_image_coords] raises, and a pose
    optimizer that raises on every call and counts its calls. *)
Definition collaborators : Collaborators := {|
  Cameras := unit;
  CameraOptimizer := unit;
  heap := nat;
  elt := float;
  Transforms := unit;
  RayBundle := nat;
  tensor_sub := PrimFloat.sub;
  get_image_coords := fun _ _ h => (inl (Raised "no cameras"), S h);
  optimizer_call := fun _ _ h => (inl (Raised "optimizer"), S h);
  generate_rays := fun _ c _ _ _ h => (inr (Rays (List.length c)), S h)
|}.

Definition empty_cache : coord_table float :=
  {| rows := 0; cols := 8; entry := fun _ _ => (0, 0)%float |}.

End Broken.

(** * Properties *)

(** ** Indexing *)

Section Indexing.

Context {A : Type}.

Lemma normalize_index_in_bounds (v : Z) (dim size : nat) :
  0 <= v < Z.of_nat size ->
  normalize_index v dim size = inr (Z.to_nat v).
Proof.
  intros Hv. unfold normalize_index.
  replace (- Z.of_nat size <=? v) with true by (symmetry; apply Z.leb_le; lia).
  replace (v <? Z.of_nat size) with true by (symmetry; apply Z.ltb_lt; lia).
  replace (v <? 0) with false by (symmetry; apply Z.ltb_ge; lia).
  reflexivity.
Qed.

Lemma normalize_index_wrapped (v : Z) (dim size : nat) :
  - Z.of_nat size <= v < Z.of_nat size ->
  normalize_index v dim size = inr (wrap size v).
Proof.
  intros Hv. unfold normalize_index, wrap.
  replace (- Z.of_nat size <=? v) with true by (symmetry; apply Z.leb_le; lia).
  replace (v <? Z.of_nat size) with true by (symmetry; apply Z.ltb_lt; lia).
  simpl. now rewrite (Z.add_comm v).
Qed.

Lemma normalize_index_out_of_range (v : Z) (dim size : nat) :
  v < - Z.of_nat size \/ Z.of_nat size <= v ->
  normalize_index v dim size = inl (IndexError v dim size).
Proof.
  intros Hv. unfold normalize_index.
  destruct (- Z.of_nat size <=? v) eqn:E1; [| reflexivity].
  destruct (v <? Z.of_nat size) eqn:E2; [| reflexivity].
  apply Z.leb_le in E1. apply Z.ltb_lt in E2. lia.
Qed.

Lemma wrap_in_bounds (size : nat) (v : Z) :
  0 <= v -> wrap size v = Z.to_nat v.
Proof.
  intros Hv. unfold wrap.
  now replace (v <? 0) with false by (symmetry; apply Z.ltb_ge; lia).
Qed.

Lemma wrap_negative (size : nat) (v : Z) :
  v < 0 -> wrap size v = Z.to_nat (Z.of_nat size + v).
Proof.
  intros Hv. unfold wrap.
  now replace (v <? 0) with true by (symmetry; apply Z.ltb_lt; lia).
Qed.

Lemma index_pair_wrapped (t : coord_table A) (y x : Z) :
  - Z.of_nat (rows t) <= y < Z.of_nat (rows t) ->
  - Z.of_nat (cols t) <= x < Z.of_nat (cols t) ->
  index_pair t y x = inr (entry t (wrap (rows t) y) (wrap (cols t) x)).
Proof.
  intros Hy Hx. unfold index_pair.
  now rewrite (normalize_index_wrapped y 0 _ Hy), (normalize_index_wrapped x 1 _ Hx).
Qed.

Lemma index_gather_map (t : coord_table A) (f : Z * Z * Z -> A * A)
    (indices : list (Z * Z * Z)) :
  Forall (fun r => index_pair t (snd (fst r)) (snd r) = inr (f r)) indices ->
  index_gather t (column1 indices) (column2 indices) = inr (map f indices).
Proof.
  induction 1 as [| r rest Hr _ IH].
  - reflexivity.
  - unfold column1, column2 in *. cbn [map index_gather].
    rewrite Hr, IH. reflexivity.
Qed.

Lemma index_gather_columns (t : coord_table A) (i1 i2 : list (Z * Z * Z)) :
  map row_col i1 = map row_col i2 ->
  index_gather t (column1 i1) (column2 i1) = index_gather t (column1 i2) (column2 i2).
Proof.
  intros H.
  assert (H1 : forall i, column1 i = map fst (map row_col i))
    by (intros i; unfold column1; now rewrite map_map).
  assert (H2 : forall i, column2 i = map snd (map row_col i))
    by (intros i; unfold column2; now rewrite map_map).
  now rewrite !H1, !H2, H.
Qed.

Lemma index_pair_out_of_range (t : coord_table A) (y x : Z) :
  ~ (- Z.of_nat (rows t) <= y < Z.of_nat (rows t) /\
     - Z.of_nat (cols t) <= x < Z.of_nat (cols t)) ->
  is_ok (index_pair t y x) = false.
Proof.
  intros Hout. unfold index_pair.
  destruct (Z_lt_ge_dec y (- Z.of_nat (rows t))) as [Hy | Hy];
    [rewrite normalize_index_out_of_range by lia; reflexivity |].
  destruct (Z_lt_ge_dec y (Z.of_nat (rows t))) as [Hy' | Hy'];
    [| rewrite normalize_index_out_of_range by lia; reflexivity].
  rewrite (normalize_index_wrapped y) by lia.
  rewrite normalize_index_out_of_range by lia. reflexivity.
Qed.

Lemma index_gather_out_of_range (t : coord_table A) (indices : list (Z * Z * Z)) :
  Exists (fun r => ~ (- Z.of_nat (rows t) <= snd (fst r) < Z.of_nat (rows t) /\
                      - Z.of_nat (cols t) <= snd r < Z.of_nat (cols t))) indices ->
  is_ok (index_gather t (column1 indices) (column2 indices)) = false.
Proof.
  unfold column1, column2.
  induction 1 as [r rest Hr | r rest _ IH]; cbn [map index_gather].
  - apply index_pair_out_of_range in Hr.
    destruct (index_pair t (snd (fst r)) (snd r)); [reflexivity | discriminate].
  - destruct (index_pair t (snd (fst r)) (snd r)); [reflexivity |].
    destruct (index_gather t _ _); [reflexivity | discriminate].
Qed.

End Indexing.

(** ** The three stages of [forward] *)

Section Forward.

Context {C : Collaborators}.

Implicit Types (s : store) (resample : bool).

Lemma forward_gather_ok resample s (coords : list (elt * elt)) :
  gathered s = inr coords ->
  forward resample s = forward_delegate resample (column0 (ray_indices s)) coords s.
Proof.
  unfold gathered, forward, Py.bind, Py.gets, Py.lift. intros ->. reflexivity.
Qed.

Lemma forward_gather_error resample s (e : exn) :
  gathered s = inl e -> forward resample s = (inl e, s).
Proof.
  unfold gathered, forward, Py.bind, Py.gets, Py.lift. intros ->. reflexivity.
Qed.

Lemma delegate_optimizer_error resample s (c : list Z) (coords : list (elt * elt))
    (e : exn) (h1 : heap) :
  optimizer_call (pose_optimizer (self s)) c (world s) = (inl e, h1) ->
  forward_delegate resample c coords s = (inl e, with_world s h1).
Proof.
  unfold forward_delegate, Py.bind, Py.gets, call. intros ->. reflexivity.
Qed.

Lemma delegate_optimizer_ok resample s (c : list Z) (coords : list (elt * elt))
    (tr : Transforms) (h1 : heap) :
  optimizer_call (pose_optimizer (self s)) c (world s) = (inr tr, h1) ->
  forward_delegate resample c coords s =
  (v <- call (generate_rays (cameras (self s)) (unsqueeze_last c) coords tr resample) ;;
   forward_return resample v) (with_world s h1).
Proof.
  unfold forward_delegate, Py.bind, Py.gets, call. intros ->. reflexivity.
Qed.

Lemma delegate_rays_error resample s (c : list Z) (coords : list (elt * elt))
    (tr : Transforms) (h1 h2 : heap) (e : exn) :
  optimizer_call (pose_optimizer (self s)) c (world s) = (inr tr, h1) ->
  generate_rays (cameras (self s)) (unsqueeze_last c) coords tr resample h1 = (inl e, h2) ->
  forward_delegate resample c coords s = (inl e, with_world s h2).
Proof.
  intros Ho Hg. rewrite (delegate_optimizer_ok _ _ _ _ _ _ Ho).
  unfold Py.bind, call. cbn. rewrite Hg. reflexivity.
Qed.

Lemma delegate_rays_ok resample s (c : list Z) (coords : list (elt * elt))
    (tr : Transforms) (h1 h2 : heap) (v : rays_result RayBundle elt) :
  optimizer_call (pose_optimizer (self s)) c (world s) = (inr tr, h1) ->
  generate_rays (cameras (self s)) (unsqueeze_last c) coords tr resample h1 = (inr v, h2) ->
  forward_delegate resample c coords s = forward_return resample v (with_world s h2).
Proof.
  intros Ho Hg. rewrite (delegate_optimizer_ok _ _ _ _ _ _ Ho).
  unfold Py.bind, call. cbn. rewrite Hg. reflexivity.
Qed.

Lemma return_keep s (v : rays_result RayBundle elt) :
  forward_return false v s = (inr v, s).
Proof. reflexivity. Qed.

Lemma return_pair s (rb : RayBundle) (raw : list (elt * elt)) :
  forward_return true (RaysAndCoords rb raw) s =
  (inr (RaysAndCoords rb (sub_scalar_all tensor_sub raw (pixel_offset (self s)))), s).
Proof. reflexivity. Qed.

Lemma return_bare s (rb : RayBundle) :
  forward_return true (Rays rb) s = (inl UnpackError, s).
Proof. reflexivity. Qed.

Lemma forward_outcome resample s : outcome resample s (forward resample s).
Proof.
  destruct (gathered s) as [e | coords] eqn:Eg.
  - rewrite (forward_gather_error _ _ _ Eg). now constructor.
  - rewrite (forward_gather_ok _ _ _ Eg).
    destruct (optimizer_call (pose_optimizer (self s)) (column0 (ray_indices s)) (world s))
      as [[e | tr] h1] eqn:Eo.
    + rewrite (delegate_optimizer_error _ _ _ _ _ _ Eo). eapply optimizer_failed; eassumption.
    + destruct (generate_rays (cameras (self s)) (unsqueeze_last (column0 (ray_indices s)))
                  coords tr resample h1) as [[e | v] h2] eqn:Er.
      * rewrite (delegate_rays_error _ _ _ _ _ _ _ _ Eo Er). eapply rays_failed; eassumption.
      * rewrite (delegate_rays_ok _ _ _ _ _ _ _ _ Eo Er). eapply rays_returned; eassumption.
Qed.

End Forward.

(** ** The gather *)

Section Gather.

Context {C : Collaborators}.

Implicit Types (s : store) (resample : bool).

Lemma gathered_in_bounds s :
  Forall (in_bounds (image_coords (self s))) (ray_indices s) ->
  gathered s = inr (map (cache_at (image_coords (self s))) (ray_indices s)).
Proof.
  intros H. apply index_gather_map.
  eapply Forall_impl; [| exact H].
  intros r [Hy Hx]. unfold cache_at.
  rewrite index_pair_wrapped by lia.
  now rewrite !wrap_in_bounds by lia.
Qed.

Lemma gathered_wrapped s :
  Forall (in_wrapped_bounds (image_coords (self s))) (ray_indices s) ->
  gathered s = inr (map (cache_at_wrapped (image_coords (self s))) (ray_indices s)).
Proof.
  intros H. apply index_gather_map.
  eapply Forall_impl; [| exact H].
  intros r [Hy Hx]. now apply index_pair_wrapped.
Qed.

Lemma gathered_out_of_range s :
  Exists (fun r => ~ in_wrapped_bounds (image_coords (self s)) r) (ray_indices s) ->
  is_ok (gathered s) = false.
Proof. apply index_gather_out_of_range. Qed.

(** C2. When every row and column of the batch is within the cache, the
    coordinates [forward] gathers are, position by position, the cache
    entries at (row, col), and they are the [coords] argument of the
    [generate_rays] call. *)
Theorem forward_gathers_cache_entries resample s :
  Forall (in_bounds (image_coords (self s))) (ray_indices s) ->
  let coords := map (cache_at (image_coords (self s))) (ray_indices s) in
  let c := column0 (ray_indices s) in
  gathered s = inr coords /\
  forward resample s = forward_delegate resample c coords s /\
  forall (tr : Transforms) (h1 : heap),
    optimizer_call (pose_optimizer (self s)) c (world s) = (inr tr, h1) ->
    forward resample s =
    (v <- call (generate_rays (cameras (self s)) (unsqueeze_last c) coords tr resample) ;;
     forward_return resample v) (with_world s h1).
Proof.
  intros H coords c. pose proof (gathered_in_bounds s H) as Hg.
  split; [exact Hg |]. split.
  - now apply forward_gather_ok.
  - intros tr h1 Ho. rewrite (forward_gather_ok _ _ _ Hg).
    now apply delegate_optimizer_ok.
Qed.

(** C9, as amended. When every row of the batch is in [-rows, rows - 1]
    and every column in [-cols, cols - 1], the gather does not fail: it
    returns the cache entry at the position where a negative row has had
    rows added and a negative column cols, which is (rows + row,
    cols + col) when both are negative. *)
Theorem forward_gather_wraps_negative resample s :
  Forall (in_wrapped_bounds (image_coords (self s))) (ray_indices s) ->
  let table := image_coords (self s) in
  let coords := map (cache_at_wrapped table) (ray_indices s) in
  gathered s = inr coords /\
  forward resample s = forward_delegate resample (column0 (ray_indices s)) coords s /\
  forall r : Z * Z * Z,
    In r (ray_indices s) -> snd (fst r) < 0 -> snd r < 0 ->
    cache_at_wrapped table r =
    entry table (Z.to_nat (Z.of_nat (rows table) + snd (fst r)))
                (Z.to_nat (Z.of_nat (cols table) + snd r)).
Proof.
  intros H table coords. pose proof (gathered_wrapped s H) as Hg.
  split; [exact Hg |]. split.
  - now apply forward_gather_ok.
  - intros r _ Hy Hx. unfold cache_at_wrapped.
    now rewrite !wrap_negative by assumption.
Qed.

(** C10. Two batches that agree on every row and column, whatever their
    camera ids, gather the same coordinates from one instance: both calls
    fail in the gather with one error, or both hand one list of
    coordinate pairs to the collaborators. *)
Theorem gather_ignores_camera_ids resample s1 s2 :
  self s1 = self s2 ->
  map row_col (ray_indices s1) = map row_col (ray_indices s2) ->
  gathered s1 = gathered s2 /\
  ((exists e : exn,
      forward resample s1 = (inl e, s1) /\ forward resample s2 = (inl e, s2)) \/
   (exists coords : list (elt * elt),
      forward resample s1
        = forward_delegate resample (column0 (ray_indices s1)) coords s1 /\
      forward resample s2
        = forward_delegate resample (column0 (ray_indices s2)) coords s2)).
Proof.
  intros Hself Hrc.
  assert (Hg : gathered s1 = gathered s2).
  { unfold gathered. rewrite Hself. now apply index_gather_columns. }
  split; [exact Hg |].
  destruct (gathered s2) as [e | coords] eqn:E2.
  - left. exists e. split; now apply forward_gather_error.
  - right. exists coords. split; now apply forward_gather_ok.
Qed.

End Gather.

(** ** What [forward] returns *)

Section Returned.

Context {C : Collaborators}.

Implicit Types (s : store) (resample : bool).

(** C3. A call with [resample = true] returns exactly when
    [generate_rays] has returned a pair; what it returns is a pair of that
    ray bundle and of the resampled coordinates with the configured
    offset subtracted from every element, as many pairs as resampled. *)
Theorem forward_resample_subtracts_offset s :
  (forall (coords : list (elt * elt)) (tr : Transforms) (h1 h2 : heap)
          (rb : RayBundle) (raw : list (elt * elt)),
      gathered s = inr coords ->
      optimizer_call (pose_optimizer (self s)) (column0 (ray_indices s)) (world s)
        = (inr tr, h1) ->
      generate_rays (cameras (self s)) (unsqueeze_last (column0 (ray_indices s)))
        coords tr true h1 = (inr (RaysAndCoords rb raw), h2) ->
      forward true s =
      (inr (RaysAndCoords rb
              (map (fun p => (tensor_sub (fst p) (pixel_offset (self s)),
                              tensor_sub (snd p) (pixel_offset (self s)))) raw)),
       with_world s h2)) /\
  (forall (v : rays_result RayBundle elt) (s' : store),
      forward true s = (inr v, s') ->
      exists (coords : list (elt * elt)) (tr : Transforms) (h1 : heap)
             (rb : RayBundle) (raw adjusted : list (elt * elt)),
        gathered s = inr coords /\
        optimizer_call (pose_optimizer (self s)) (column0 (ray_indices s)) (world s)
          = (inr tr, h1) /\
        generate_rays (cameras (self s)) (unsqueeze_last (column0 (ray_indices s)))
          coords tr true h1 = (inr (RaysAndCoords rb raw), world s') /\
        v = RaysAndCoords rb adjusted /\
        List.length adjusted = List.length raw /\
        forall (i : nat) (p : elt * elt),
          nth_error raw i = Some p ->
          nth_error adjusted i =
          Some (tensor_sub (fst p) (pixel_offset (self s)),
                tensor_sub (snd p) (pixel_offset (self s)))).
Proof.
  split.
  - intros coords tr h1 h2 rb raw Hg Ho Hr.
    rewrite (forward_gather_ok _ _ _ Hg), (delegate_rays_ok _ _ _ _ _ _ _ _ Ho Hr).
    reflexivity.
  - intros v s'.
    destruct (forward_outcome true s)
      as [e Hg | coords e h1 Hg Ho | coords tr e h1 h2 Hg Ho Hr
          | coords tr v0 h1 h2 Hg Ho Hr]; try discriminate.
    destruct v0 as [rb | rb raw].
    + rewrite return_bare. discriminate.
    + rewrite return_pair. intros [= <- <-].
      exists coords, tr, h1, rb, raw,
        (sub_scalar_all tensor_sub raw (pixel_offset (self s))).
      repeat split; try assumption.
      * unfold sub_scalar_all. apply length_map.
      * intros i p Hp. unfold sub_scalar_all. rewrite nth_error_map, Hp. reflexivity.
Qed.

(** C4. A call with [resample = false] returns what [generate_rays]
    returned, untouched, success or failure; under the contract of
    [generate_rays] that is a ray bundle alone. *)
Theorem forward_no_resample_passes_through s :
  generate_rays_contract ->
  (forall (coords : list (elt * elt)) (tr : Transforms) (h1 : heap),
      gathered s = inr coords ->
      optimizer_call (pose_optimizer (self s)) (column0 (ray_indices s)) (world s)
        = (inr tr, h1) ->
      forward false s =
      (let (r, h2) :=
         generate_rays (cameras (self s)) (unsqueeze_last (column0 (ray_indices s)))
           coords tr false h1 in
       (r, with_world s h2))) /\
  (forall (v : rays_result RayBundle elt) (s' : store),
      forward false s = (inr v, s') ->
      exists rb : RayBundle, v = Rays rb).
Proof.
  intros Hcontract. split.
  - intros coords tr h1 Hg Ho.
    rewrite (forward_gather_ok _ _ _ Hg).
    destruct (generate_rays (cameras (self s)) (unsqueeze_last (column0 (ray_indices s)))
                coords tr false h1) as [[e | v] h2] eqn:Er.
    + now apply delegate_rays_error with (tr := tr) (h1 := h1).
    + rewrite (delegate_rays_ok _ _ _ _ _ _ _ _ Ho Er). apply return_keep.
  - intros v s'.
    destruct (forward_outcome false s)
      as [e Hg | coords e h1 Hg Ho | coords tr e h1 h2 Hg Ho Hr
          | coords tr v0 h1 h2 Hg Ho Hr]; try discriminate.
    rewrite return_keep. intros [= <- <-].
    specialize (Hcontract _ _ _ _ _ _ _ _ Hr).
    destruct v0 as [rb | rb raw]; [now exists rb | discriminate].
Qed.

(** C6. A failure of the gather reaches the caller as it is, and so does
    a failure of [generate_rays]; under the contract of [generate_rays],
    every exception a call of [forward] raises is the one the gather, the
    pose optimizer or [generate_rays] raised in that call. *)
Theorem forward_relays_failures resample s :
  generate_rays_contract ->
  (forall e : exn, gathered s = inl e -> forward resample s = (inl e, s)) /\
  (forall (coords : list (elt * elt)) (tr : Transforms) (h1 h2 : heap) (e : exn),
      gathered s = inr coords ->
      optimizer_call (pose_optimizer (self s)) (column0 (ray_indices s)) (world s)
        = (inr tr, h1) ->
      generate_rays (cameras (self s)) (unsqueeze_last (column0 (ray_indices s)))
        coords tr resample h1 = (inl e, h2) ->
      forward resample s = (inl e, with_world s h2)) /\
  (forall e : exn,
      fst (forward resample s) = inl e ->
      gathered s = inl e \/
      exists coords : list (elt * elt),
        gathered s = inr coords /\
        (fst (optimizer_call (pose_optimizer (self s)) (column0 (ray_indices s)) (world s))
           = inl e \/
         exists (tr : Transforms) (h1 : heap),
           optimizer_call (pose_optimizer (self s)) (column0 (ray_indices s)) (world s)
             = (inr tr, h1) /\
           fst (generate_rays (cameras (self s))
                  (unsqueeze_last (column0 (ray_indices s))) coords tr resample h1)
             = inl e)).
Proof.
  intros Hcontract. split; [| split].
  - intros e Hg. now apply forward_gather_error.
  - intros coords tr h1 h2 e Hg Ho Hr.
    rewrite (forward_gather_ok _ _ _ Hg).
    now apply delegate_rays_error with (tr := tr) (h1 := h1).
  - intros e. destruct (forward_outcome resample s)
      as [e0 Hg | coords e0 h1 Hg Ho | coords tr e0 h1 h2 Hg Ho Hr
          | coords tr v h1 h2 Hg Ho Hr]; intros Hf;
      try (cbn [fst] in Hf; injection Hf as ->).
    + left. exact Hg.
    + right. exists coords. split; [exact Hg |]. left. now rewrite Ho.
    + right. exists coords. split; [exact Hg |]. right. exists tr, h1.
      split; [exact Ho |]. now rewrite Hr.
    + exfalso. specialize (Hcontract _ _ _ _ _ _ _ _ Hr).
      destruct resample.
      * destruct v as [rb | rb raw]; [discriminate |].
        rewrite return_pair in Hf. discriminate.
      * rewrite return_keep in Hf. discriminate.
Qed.

End Returned.

(** ** What [forward] leaves alone *)

Section Frame.

Context {C : Collaborators}.

Lemma preserves_ret {A : Type} (a : A) : preserves (Py.ret a).
Proof. intros s. now split. Qed.

Lemma preserves_gets {A : Type} (f : store -> A) : preserves (Py.gets f).
Proof. intros s. now split. Qed.

Lemma preserves_lift {A : Type} (r : result A) : preserves (Py.lift r).
Proof. intros s. now split. Qed.

Lemma preserves_call {A : Type} (f : heap -> result A * heap) : preserves (call f).
Proof. intros s. unfold call. destruct (f (world s)). now split. Qed.

Lemma preserves_bind {A B : Type} (m : Py.M store A) (k : A -> Py.M store B) :
  preserves m -> (forall a, preserves (k a)) -> preserves (Py.bind m k).
Proof.
  intros Hm Hk s. unfold Py.bind. specialize (Hm s).
  destruct (m s) as [[e | a] s1]; simpl in Hm.
  - exact Hm.
  - destruct (Hk a s1) as [H1 H2]. destruct Hm as [H3 H4]. split; congruence.
Qed.

Create HintDb frame.
#[local] Hint Resolve preserves_ret preserves_gets preserves_lift preserves_call : frame.

Lemma preserves_forward_return (resample : bool) (v : rays_result RayBundle elt) :
  preserves (forward_return resample v).
Proof.
  destruct resample; unfold forward_return; [| auto with frame].
  apply preserves_bind; [auto with frame |]. intros [rb nc].
  apply preserves_bind; auto with frame.
Qed.

Lemma preserves_forward_delegate (resample : bool) (c : list Z) (coords : list (elt * elt)) :
  preserves (forward_delegate resample c coords).
Proof.
  unfold forward_delegate.
  apply preserves_bind; [auto with frame | intros optimizer].
  apply preserves_bind; [auto with frame | intros tr].
  apply preserves_bind; [auto with frame | intros cams].
  apply preserves_bind; [auto with frame | intros v].
  apply preserves_forward_return.
Qed.

(** C7. Whatever the flag and however the call ends, after a call of
    [forward] the instance holds the cache, the offset and the two
    references it held before, and the index tensor is as it was. *)
Theorem forward_keeps_instance_and_input (resample : bool) (s : store) :
  let s' := snd (forward resample s) in
  image_coords (self s') = image_coords (self s) /\
  pixel_offset (self s') = pixel_offset (self s) /\
  cameras (self s') = cameras (self s) /\
  pose_optimizer (self s') = pose_optimizer (self s) /\
  ray_indices s' = ray_indices s.
Proof.
  assert (H : preserves (forward resample)).
  { unfold forward.
    apply preserves_bind; [auto with frame | intros indices].
    apply preserves_bind; [auto with frame | intros table].
    apply preserves_bind; [auto with frame | intros coords].
    apply preserves_forward_delegate. }
  destruct (H s) as [Hself Hidx]. cbv zeta. rewrite Hself. auto.
Qed.

End Frame.

(** ** Construction *)

Section Construction.

Context {C : Collaborators}.

(** C5. Construction succeeds exactly when [get_image_coords], called on
    the given offset (0.5 when none is given), returns; the instance then
    stores that very table as its cache, with the offset and the two
    references. The cache is thus determined by the offset and the camera
    collection, and follows the offset given at construction. *)
Theorem init_caches_image_coords (cams : Cameras) (optimizer : CameraOptimizer)
    (offset : option float) (h : heap) :
  let configured := match offset with Some v => v | None => 0.5%float end in
  (forall (table : coord_table elt) (h' : heap),
      get_image_coords cams configured h = (inr table, h') ->
      __init__ cams optimizer offset h =
      (inr {| cameras := cams; pixel_offset := configured;
              pose_optimizer := optimizer; image_coords := table |}, h')) /\
  (forall (rg : RayGenerator) (h' : heap),
      __init__ cams optimizer offset h = (inr rg, h') ->
      get_image_coords cams configured h = (inr (image_coords rg), h') /\
      pixel_offset rg = configured /\
      cameras rg = cams /\
      pose_optimizer rg = optimizer).
Proof.
  destruct offset as [v |]; cbv zeta; unfold __init__, pixel_offset_default; split.
  - intros table h' Hc. now rewrite Hc.
  - intros rg h'.
    destruct (get_image_coords cams v h) as [[e | table] h1]; [discriminate |].
    intros [= <- <-]. auto.
  - intros table h' Hc. now rewrite Hc.
  - intros rg h'.
    destruct (get_image_coords cams 0.5%float h) as [[e | table] h1]; [discriminate |].
    intros [= <- <-]. auto.
Qed.

End Construction.

(** ** Alignment of the ray bundle, with the collaborators of the
    specification *)

Section Alignment.

Variable m : camera_model.

Local Abbreviation SC := (spec_collaborators m).

Lemma spec_corrections_valid (indices : list (Z * Z * Z)) :
  Forall (fun r => valid_camera m (fst (fst r)) = true) indices ->
  spec_corrections m (column0 indices)
  = inr (map (fun r => correction m (fst (fst r))) indices).
Proof.
  induction 1 as [| r rest Hr _ IH]; [reflexivity |].
  unfold column0 in *. cbn [map spec_corrections]. now rewrite Hr, IH.
Qed.

Lemma spec_rays_aligned (resample : bool) (f : Z * Z * Z -> pixel m * pixel m)
    (indices : list (Z * Z * Z)) :
  Forall (fun r => valid_camera m (fst (fst r)) = true) indices ->
  spec_rays m resample (unsqueeze_last (column0 indices)) (map f indices)
    (map (fun r => correction m (fst (fst r))) indices)
  = inr (map (fun r => cast_ray m resample (fst (fst r)) (f r)
                         (correction m (fst (fst r)))) indices).
Proof.
  induction 1 as [| r rest Hr _ IH]; [reflexivity |].
  unfold unsqueeze_last, column0 in *. cbn [map spec_rays]. now rewrite Hr, IH.
Qed.

Lemma valid_triple_camera (table : coord_table (pixel m)) (r : Z * Z * Z) :
  valid_triple m table r -> valid_camera m (fst (fst r)) = true.
Proof.
  intros [Hc _]. unfold valid_camera.
  apply andb_true_intro. split; [apply Z.leb_le | apply Z.ltb_lt]; lia.
Qed.

Lemma spec_contract : generate_rays_contract (C := SC).
Proof.
  intros cams ci co tr resample h v h'. cbn. unfold spec_generate_rays.
  destruct (spec_rays m resample ci co tr); [discriminate |].
  intros [= <- _]. now destruct resample.
Qed.

Lemma forward_spec_run (resample : bool) (s : @store SC) :
  Forall (valid_triple m (image_coords (self s))) (ray_indices s) ->
  let rays := map (ray_of m resample (image_coords (self s))) (ray_indices s) in
  let coords := map (cache_at (image_coords (self s))) (ray_indices s) in
  forward (C := SC) resample s =
  (inr (if resample
        then RaysAndCoords rays
               (sub_scalar_all (pixel_sub m) (map (perturb m) coords) (pixel_offset (self s)))
        else Rays rays), s).
Proof.
  intros Hvalid rays coords.
  assert (Hb : Forall (in_bounds (image_coords (self s))) (ray_indices s)).
  { eapply Forall_impl; [| exact Hvalid]. now intros r [_ H]. }
  assert (Hc : Forall (fun r => valid_camera m (fst (fst r)) = true) (ray_indices s)).
  { eapply Forall_impl; [| exact Hvalid]. intros r. apply valid_triple_camera. }
  rewrite (forward_gather_ok resample s coords (gathered_in_bounds s Hb)).
  assert (Ho : optimizer_call (pose_optimizer (self s)) (column0 (ray_indices s)) (world s)
               = (inr (map (fun r => correction m (fst (fst r))) (ray_indices s)), tt)).
  { cbn. unfold spec_optimizer_call. rewrite (spec_corrections_valid _ Hc).
    now destruct (world s). }
  assert (Hr : generate_rays (cameras (self s)) (unsqueeze_last (column0 (ray_indices s)))
                 coords (map (fun r => correction m (fst (fst r))) (ray_indices s))
                 resample tt
               = (inr (if resample then RaysAndCoords rays (map (perturb m) coords)
                       else Rays rays), tt)).
  { cbn. unfold spec_generate_rays, coords.
    rewrite (spec_rays_aligned resample _ _ Hc). reflexivity. }
  rewrite (delegate_rays_ok _ _ _ _ _ _ _ _ Ho Hr).
  assert (Hs : with_world s tt = s) by (destruct s as [rg idx []]; reflexivity).
  rewrite Hs. destruct resample; reflexivity.
Qed.

(** With the collaborators of the specification the adjusted coordinates
    of a resampling call are N pairs as well. *)
Lemma forward_spec_resample_coords (s : @store SC) :
  Forall (valid_triple m (image_coords (self s))) (ray_indices s) ->
  exists (rb : list (ray m)) (adjusted : list (pixel m * pixel m)),
    forward (C := SC) true s = (inr (RaysAndCoords rb adjusted), s) /\
    List.length adjusted = List.length (ray_indices s).
Proof.
  intros Hvalid. rewrite (forward_spec_run true s Hvalid).
  eexists _, _. split; [reflexivity |].
  unfold sub_scalar_all. now rewrite !length_map.
Qed.

(** C1. With collaborators as the specification describes them, a batch
    of N valid index triples makes [forward] return a ray bundle of
    exactly N rays, ray i being the one generated from triple i: from its
    camera id, the cache entry at its row and column, and the correction
    of its camera. *)
Theorem forward_bundle_aligned (resample : bool) (s : @store SC) :
  Forall (valid_triple m (image_coords (self s))) (ray_indices s) ->
  exists v : rays_result (list (ray m)) (pixel m),
    forward (C := SC) resample s = (inr v, s) /\
    bundle_of (C := SC) v = map (ray_of m resample (image_coords (self s))) (ray_indices s) /\
    List.length (bundle_of (C := SC) v) = List.length (ray_indices s) /\
    forall (i : nat) (r : Z * Z * Z),
      nth_error (ray_indices s) i = Some r ->
      nth_error (bundle_of (C := SC) v) i
      = Some (ray_of m resample (image_coords (self s)) r).
Proof.
  intros Hvalid. eexists. split; [exact (forward_spec_run resample s Hvalid) |].
  destruct resample; cbn [bundle_of]; (split; [reflexivity |]);
    (split; [apply length_map |]);
    intros i r Hi; now rewrite nth_error_map, Hi.
Qed.

End Alignment.

(** ** Defining the module *)

Section ModuleDefinition.

Import PyModule.

Local Open Scope string_scope.

(** C8. Executing the file's top-level statements stops in the [def] of
    [forward]: the return annotation loads [Union], which no import
    binds. *)
Theorem module_definition_raises :
  exec_module ray_generators = inl (NameError "Union").
Proof. reflexivity. Qed.

Lemma forward_annotation_names :
  unbound ("RayBundle" :: "Tensor" :: builtins) forward_returns = Some "Union" /\
  unbound ("Union" :: "RayBundle" :: "Tensor" :: builtins) forward_returns = Some "Tuple" /\
  unbound ("Tuple" :: "Union" :: "RayBundle" :: "Tensor" :: builtins) forward_returns
    = Some "Float" /\
  unbound ("Float" :: "Tuple" :: "Union" :: "RayBundle" :: "Tensor" :: builtins)
    forward_returns = None.
Proof. repeat split. Qed.

Lemma module_definition_with_typing_imports :
  is_ok (exec_module
           (ray_generators_with
              [ImportFrom "typing" ["Tuple"; "Union"];
               ImportFrom "jaxtyping" ["Float"]])) = true.
Proof. reflexivity. Qed.

Lemma module_definition_without_forward :
  is_ok (exec_module (Expr (Constant "'Ray generator.'") :: imports ++ [class_def []])%list)
  = true.
Proof. reflexivity. Qed.

End ModuleDefinition.

(** ** The small scene: offset 0.5, the index (camera 0, row 3, col 7) *)

Section SceneChecks.

Local Abbreviation SC := (spec_collaborators Scene.model).

Lemma scene_single_ray :
  forward (C := SC) false (Scene.scene [(0, 3, 7)])
  = (inr (Rays [(0, (7.5, 3.5)%float)]), Scene.scene [(0, 3, 7)]).
Proof. reflexivity. Qed.

Lemma scene_resampled :
  fst (forward (C := SC) true (Scene.scene [(0, 3, 7); (1, 0, 0)]))
  = inr (RaysAndCoords [(0, (7.5, 3.5)%float); (1, (0.5, 0.5)%float)]
           [(7.25, 3.25)%float; (0.25, 0.25)%float]).
Proof. reflexivity. Qed.

Lemma scene_unknown_camera :
  fst (forward (C := SC) false (Scene.scene [(5, 3, 7)])) = inl (IndexError 5 0 2).
Proof. reflexivity. Qed.

Lemma scene_offset_changes_cache :
  entry (image_coords (Scene.generator 0.5)) 3 7 = (7.5, 3.5)%float /\
  entry (image_coords (Scene.generator 0)) 3 7 = (7, 3)%float.
Proof. split; reflexivity. Qed.

(** Without the contract of [generate_rays] the unpacking of line 67 can
    raise. *)
Lemma bare_bundle_cannot_be_unpacked :
  fst (forward (C := Scene.bare_collaborators) true
         (@Build_store Scene.bare_collaborators
            (@Build_RayGenerator Scene.bare_collaborators tt 0.5%float tt
               (image_coords (Scene.generator 0.5)))
            [(0, 3, 7)] tt))
  = inl UnpackError.
Proof. reflexivity. Qed.

Lemma forward_bundle_aligned_scene :
  Forall (valid_triple Scene.model (image_coords (Scene.generator 0.5))) [(0, 3, 7)] /\
  exists v : rays_result (list (Z * (float * float))) float,
    forward (C := SC) false (Scene.scene [(0, 3, 7)]) = (inr v, Scene.scene [(0, 3, 7)]) /\
    List.length (bundle_of (C := SC) v) = 1%nat.
Proof.
  assert (H : Forall (valid_triple Scene.model (image_coords (Scene.generator 0.5)))
                [(0, 3, 7)]).
  { repeat constructor; simpl; lia. }
  split; [exact H |].
  destruct (forward_bundle_aligned Scene.model false (Scene.scene [(0, 3, 7)]) H)
    as (v & Hf & _ & Hlen & _).
  exists v. split; [exact Hf | exact Hlen].
Defined.

Lemma forward_gathers_cache_entries_scene :
  Forall (in_bounds (image_coords (Scene.generator 0.5))) [(1, 0, 0); (0, 3, 7)] /\
  gathered (C := SC) (Scene.scene [(1, 0, 0); (0, 3, 7)])
  = inr [entry (image_coords (Scene.generator 0.5)) 0 0;
         entry (image_coords (Scene.generator 0.5)) 3 7].
Proof.
  assert (H : Forall (in_bounds (image_coords (Scene.generator 0.5)))
                [(1, 0, 0); (0, 3, 7)]).
  { repeat constructor; simpl; lia. }
  split; [exact H |].
  exact (proj1 (forward_gathers_cache_entries (C := SC) false
                  (Scene.scene [(1, 0, 0); (0, 3, 7)]) H)).
Defined.

Lemma forward_resample_subtracts_offset_scene :
  forward (C := SC) true (Scene.scene [(0, 3, 7)])
  = (inr (RaysAndCoords [(0, (7.5, 3.5)%float)]
            [(PrimFloat.sub 7.75 0.5, PrimFloat.sub 3.75 0.5)]),
     Scene.scene [(0, 3, 7)]).
Proof.
  apply (proj1 (forward_resample_subtracts_offset (C := SC) (Scene.scene [(0, 3, 7)]))
           [(7.5, 3.5)%float] [tt] tt tt [(0, (7.5, 3.5)%float)] [(7.75, 3.75)%float]);
    reflexivity.
Defined.

Lemma forward_no_resample_passes_through_scene :
  generate_rays_contract (C := SC) /\
  forall (v : rays_result (list (Z * (float * float))) float) (s' : store (C := SC)),
    forward (C := SC) false (Scene.scene [(0, 3, 7)]) = (inr v, s') ->
    exists rb : list (Z * (float * float)), v = Rays rb.
Proof.
  split; [apply spec_contract |].
  exact (proj2 (forward_no_resample_passes_through (C := SC) (Scene.scene [(0, 3, 7)])
                  (spec_contract Scene.model))).
Defined.

Lemma forward_relays_failures_scene :
  generate_rays_contract (C := SC) /\
  forward (C := SC) true (Scene.scene [(0, 3, 7); (1, 4, 0)])
  = (inl (IndexError 4 0 4), Scene.scene [(0, 3, 7); (1, 4, 0)]).
Proof.
  split; [apply spec_contract |].
  apply (proj1 (forward_relays_failures (C := SC) true
                  (Scene.scene [(0, 3, 7); (1, 4, 0)]) (spec_contract Scene.model))).
  reflexivity.
Defined.

Lemma forward_gather_wraps_negative_scene :
  Forall (in_wrapped_bounds (image_coords (Scene.generator 0.5))) [(1, -1, -8); (0, -4, 7)] /\
  gathered (C := SC) (Scene.scene [(1, -1, -8); (0, -4, 7)])
  = inr [entry (image_coords (Scene.generator 0.5)) 3 0;
         entry (image_coords (Scene.generator 0.5)) 0 7].
Proof.
  assert (H : Forall (in_wrapped_bounds (image_coords (Scene.generator 0.5)))
                [(1, -1, -8); (0, -4, 7)]).
  { repeat constructor; simpl; lia. }
  split; [exact H |].
  exact (proj1 (forward_gather_wraps_negative (C := SC) false
                  (Scene.scene [(1, -1, -8); (0, -4, 7)]) H)).
Defined.

Lemma gather_ignores_camera_ids_scene :
  gathered (C := SC) (Scene.scene [(0, 3, 7)]) = gathered (C := SC) (Scene.scene [(1, 3, 7)]).
Proof.
  exact (proj1 (gather_ignores_camera_ids (C := SC) false
                  (Scene.scene [(0, 3, 7)]) (Scene.scene [(1, 3, 7)])
                  eq_refl eq_refl)).
Defined.

Lemma init_caches_image_coords_scene :
  __init__ (C := SC) tt tt None tt
  = (inr (@Build_RayGenerator SC tt 0.5%float tt
            (Build_coord_table 4 8 (sample_location Scene.model 0.5))), tt).
Proof.
  apply (proj1 (init_caches_image_coords (C := SC) tt tt None tt)).
  reflexivity.
Defined.

(** C9, as stated, fails: a row in [-rows, -1] next to a column that is
    out of range makes the gather raise. *)
Lemma gather_negative_row_bad_column :
  let s := Scene.scene [(0, -1, 8)] in
  let table := image_coords (self s) in
  (- Z.of_nat (rows table) <= -1 <= -1 \/ - Z.of_nat (cols table) <= 8 <= -1) /\
  gathered (C := SC) s = inl (IndexError 8 1 8) /\
  forward (C := SC) false s = (inl (IndexError 8 1 8), s).
Proof.
  cbv zeta. split; [left; simpl; lia |]. split; reflexivity.
Qed.

(** A negative row next to a column that is not negative reads the entry
    at (rows + row, col), which is not the position (rows + row,
    cols + col). *)
Lemma gather_negative_row_plain_column :
  gathered (C := SC) (Scene.scene [(0, -1, 2)])
  = inr [entry (image_coords (Scene.generator 0.5)) 3 2].
Proof. reflexivity. Qed.

End SceneChecks.

(** * Further properties *)

(** ** The gather, case by case *)

Section GatherCases.

Context {C : Collaborators}.

Implicit Types (s : store) (resample : bool).

Lemma in_wrapped_bounds_dec (table : coord_table elt) (r : Z * Z * Z) :
  {in_wrapped_bounds table r} + {~ in_wrapped_bounds table r}.
Proof.
  unfold in_wrapped_bounds.
  destruct (Z_le_dec (- Z.of_nat (rows table)) (snd (fst r)));
    destruct (Z_lt_dec (snd (fst r)) (Z.of_nat (rows table)));
    destruct (Z_le_dec (- Z.of_nat (cols table)) (snd r));
    destruct (Z_lt_dec (snd r) (Z.of_nat (cols table)));
    (left; lia) || (right; lia).
Qed.

(** The gather returns exactly when every row is in [-rows, rows - 1]
    and every column in [-cols, cols - 1]; what it returns is then one
    pair per triple, in batch order, read at the wrapped position. *)
Theorem gather_returns_iff_in_range s (coords : list (elt * elt)) :
  gathered s = inr coords <->
  Forall (in_wrapped_bounds (image_coords (self s))) (ray_indices s) /\
  coords = map (cache_at_wrapped (image_coords (self s))) (ray_indices s).
Proof.
  split.
  - intros Hg.
    destruct (Forall_Exists_dec (in_wrapped_bounds (image_coords (self s)))
                (in_wrapped_bounds_dec (image_coords (self s))) (ray_indices s))
      as [Hall | Hex].
    + split; [exact Hall |].
      rewrite (gathered_wrapped s Hall) in Hg. now injection Hg.
    + apply gathered_out_of_range in Hex. rewrite Hg in Hex. discriminate.
  - intros [Hall ->]. now apply gathered_wrapped.
Qed.

(** A cache with no row or no column serves the empty batch and no
    other. *)
Theorem gather_on_empty_cache s :
  rows (image_coords (self s)) = 0%nat \/ cols (image_coords (self s)) = 0%nat ->
  (is_ok (gathered s) = true <-> ray_indices s = []).
Proof.
  intros Hempty. split.
  - destruct (ray_indices s) as [| r rest] eqn:E; [reflexivity |].
    intros Hok. exfalso.
    assert (Hex : Exists (fun r => ~ in_wrapped_bounds (image_coords (self s)) r)
                    (ray_indices s)).
    { rewrite E. apply Exists_cons_hd. unfold in_wrapped_bounds. lia. }
    apply gathered_out_of_range in Hex. congruence.
  - intros E. unfold gathered. rewrite E. reflexivity.
Qed.

Lemma wrap_below (size : nat) (v : Z) :
  - Z.of_nat size <= v < Z.of_nat size ->
  0 <= Z.of_nat (wrap size v) < Z.of_nat size.
Proof.
  intros Hv. unfold wrap. destruct (v <? 0) eqn:E.
  - apply Z.ltb_lt in E. rewrite Z2Nat.id by lia. lia.
  - apply Z.ltb_ge in E. rewrite Z2Nat.id by lia. lia.
Qed.

(** Replacing every negative row and column by the position it wraps to
    gives a batch that is within the cache and gathers the same
    coordinates. *)
Theorem gather_of_normalized_batch s :
  Forall (in_wrapped_bounds (image_coords (self s))) (ray_indices s) ->
  let normal := map (normalize_triple (image_coords (self s))) (ray_indices s) in
  Forall (in_bounds (image_coords (self s))) normal /\
  column0 normal = column0 (ray_indices s) /\
  gathered (with_indices s normal) = gathered s.
Proof.
  intros Hall normal. set (table := image_coords (self s)) in *.
  assert (Hin : Forall (in_bounds table) normal).
  { unfold normal. apply Forall_map. eapply Forall_impl; [| exact Hall].
    intros r [Hy Hx]. split; cbn [normalize_triple fst snd]; now apply wrap_below. }
  split; [exact Hin |]. split.
  - unfold normal, column0. rewrite map_map. reflexivity.
  - rewrite (gathered_wrapped s Hall).
    rewrite (gathered_in_bounds (with_indices s normal) Hin).
    cbn [with_indices self ray_indices]. unfold normal. rewrite map_map.
    f_equal. apply map_ext. intros r. unfold cache_at, cache_at_wrapped.
    cbn [normalize_triple fst snd]. now rewrite !Nat2Z.id.
Qed.



End GatherCases.

(** ** Failures on the way *)

Section FailurePaths.

Context {C : Collaborators}.

Implicit Types (s : store) (resample : bool).

(** When the pose optimizer raises, the call raises the same exception
    and leaves the collaborators as the optimizer left them:
    [generate_rays] is not reached. *)
Theorem forward_optimizer_failure resample s (coords : list (elt * elt))
    (e : exn) (h1 : heap) :
  gathered s = inr coords ->
  optimizer_call (pose_optimizer (self s)) (column0 (ray_indices s)) (world s)
    = (inl e, h1) ->
  forward resample s = (inl e, with_world s h1).
Proof.
  intros Hg Ho. rewrite (forward_gather_ok _ _ _ Hg).
  now apply delegate_optimizer_error.
Qed.


(** Construction raises exactly when [get_image_coords] raises, with
    that exception and the collaborators as it left them. *)
Theorem init_fails_with_image_coords (cams : Cameras) (optimizer : CameraOptimizer)
    (offset : option float) (h h' : heap) (e : exn) :
  __init__ cams optimizer offset h = (inl e, h') <->
  get_image_coords cams (match offset with Some v => v | None => 0.5%float end) h
  = (inl e, h').
Proof.
  unfold __init__, pixel_offset_default.
  destruct offset as [v |].
  - destruct (get_image_coords cams v h) as [[e0 | table] h0];
      split; intros H; try discriminate; injection H as -> ->; reflexivity.
  - destruct (get_image_coords cams 0.5%float h) as [[e0 | table] h0];
      split; intros H; try discriminate; injection H as -> ->; reflexivity.
Qed.

End FailurePaths.

(** ** The offset and the cache *)

Section OffsetAndCache.

Context {C : Collaborators}.

Implicit Types (s : store) (resample : bool).

Lemma forward_preserves resample : preserves (forward resample).
Proof.
  unfold forward.
  apply preserves_bind; [apply preserves_gets | intros indices].
  apply preserves_bind; [apply preserves_gets | intros table].
  apply preserves_bind; [apply preserves_lift | intros coords].
  apply preserves_forward_delegate.
Qed.

Lemma after_calls_self (calls : list (list (Z * Z * Z) * bool)) s :
  self (after_calls calls s) = self s.
Proof.
  revert s. induction calls as [| [indices resample] rest IH]; intros s; [reflexivity |].
  cbn [after_calls]. rewrite IH.
  now destruct (forward_preserves resample (with_indices s indices)) as [-> _].
Qed.

(** After construction and any sequence of calls, on any batches and
    flags and whether they return or raise, the instance is the one that
    was constructed: its cache is still the table [get_image_coords]
    returned for the offset it stores. *)
Theorem cache_matches_offset_after_calls (cams : Cameras) (optimizer : CameraOptimizer)
    (offset : option float) (h h1 : heap) (rg : RayGenerator)
    (calls : list (list (Z * Z * Z) * bool)) (indices : list (Z * Z * Z)) :
  __init__ cams optimizer offset h = (inr rg, h1) ->
  let s := after_calls calls {| self := rg; ray_indices := indices; world := h1 |} in
  self s = rg /\
  get_image_coords cams (pixel_offset (self s)) h = (inr (image_coords (self s)), h1) /\
  pixel_offset (self s) = match offset with Some v => v | None => 0.5%float end.
Proof.
  intros Hinit s. unfold s. rewrite after_calls_self. cbn [self].
  split; [reflexivity |]. revert Hinit. unfold __init__, pixel_offset_default.
  destruct offset as [v |].
  - destruct (get_image_coords cams v h) as [[e | table] h0] eqn:E; [discriminate |].
    intros [= <- <-]. cbn [pixel_offset image_coords]. now split.
  - destruct (get_image_coords cams 0.5%float h) as [[e | table] h0] eqn:E;
      [discriminate |].
    intros [= <- <-]. cbn [pixel_offset image_coords]. now split.
Qed.

(** Assigning another [pixel_offset] to an instance does not touch the
    cache. A call without resampling then ends as it would have; a
    resampling call hands [generate_rays] the coordinates of the old
    cache and subtracts the new offset. *)
Theorem forward_after_offset_assignment s (offset : float) :
  gathered (with_pixel_offset s offset) = gathered s /\
  fst (forward false (with_pixel_offset s offset)) = fst (forward false s) /\
  world (snd (forward false (with_pixel_offset s offset)))
    = world (snd (forward false s)) /\
  forall (coords : list (elt * elt)) (tr : Transforms) (h1 h2 : heap)
         (rb : RayBundle) (raw : list (elt * elt)),
    gathered s = inr coords ->
    optimizer_call (pose_optimizer (self s)) (column0 (ray_indices s)) (world s)
      = (inr tr, h1) ->
    generate_rays (cameras (self s)) (unsqueeze_last (column0 (ray_indices s)))
      coords tr true h1 = (inr (RaysAndCoords rb raw), h2) ->
    fst (forward true (with_pixel_offset s offset))
    = inr (RaysAndCoords rb (sub_scalar_all tensor_sub raw offset)).
Proof.
  split; [reflexivity |].
  assert (Hfalse : forall r, forward false (with_pixel_offset s offset) = r ->
            fst r = fst (forward false s) /\ world (snd r) = world (snd (forward false s))).
  { intros r <-.
    unfold forward, forward_delegate, forward_return, Py.bind, Py.gets, Py.lift, Py.ret, call.
    cbn [with_pixel_offset self ray_indices world image_coords pose_optimizer cameras].
    destruct (index_gather _ _ _) as [e | coords]; [now split |].
    destruct (optimizer_call _ _ _) as [[e | tr] h1]; [now split |].
    cbn [with_world self world pose_optimizer cameras].
    destruct (generate_rays _ _ _ _ _ _) as [[e | v] h2]; now split. }
  split; [apply (Hfalse _ eq_refl) |]. split; [apply (Hfalse _ eq_refl) |].
  intros coords tr h1 h2 rb raw Hg Ho Hr.
  rewrite (forward_gather_ok true (with_pixel_offset s offset) coords Hg).
  change (ray_indices (with_pixel_offset s offset)) with (ray_indices s).
  rewrite (delegate_rays_ok true (with_pixel_offset s offset) _ coords tr h1 h2
             (RaysAndCoords rb raw) Ho Hr).
  reflexivity.
Qed.

End OffsetAndCache.

(** ** Which imports let the module be defined *)

Section ModuleImports.

Import PyModule.

Local Open Scope string_scope.






End ModuleImports.

(** ** The further properties on the small scene *)

Section FurtherChecks.

Local Abbreviation SC := (spec_collaborators Scene.model).

Lemma gather_returns_iff_in_range_scene :
  gathered (C := SC) (Scene.scene [(1, -1, -8); (0, 3, 7)])
  = inr [entry (image_coords (Scene.generator 0.5)) 3 0;
         entry (image_coords (Scene.generator 0.5)) 3 7].
Proof.
  apply (proj2 (gather_returns_iff_in_range (C := SC)
                  (Scene.scene [(1, -1, -8); (0, 3, 7)]) _)).
  split; [repeat constructor; simpl; lia | reflexivity].
Defined.

Lemma gather_on_empty_cache_scene :
  let s := @Build_store Broken.collaborators
             (@Build_RayGenerator Broken.collaborators tt 0.5%float tt Broken.empty_cache)
             [(0, 0, 0)] 0%nat in
  (rows (image_coords (self s)) = 0%nat \/ cols (image_coords (self s)) = 0%nat) /\
  is_ok (gathered s) = false.
Proof.
  cbv zeta. split; [left; reflexivity |].
  destruct (is_ok (gathered _)) eqn:E; [| reflexivity].
  apply (gather_on_empty_cache (C := Broken.collaborators)) in E;
    [discriminate E | left; reflexivity].
Defined.

Lemma gather_of_normalized_batch_scene :
  Forall (in_wrapped_bounds (image_coords (Scene.generator 0.5))) [(1, -1, -8); (0, -4, 7)] /\
  Forall (in_bounds (image_coords (Scene.generator 0.5))) [(1, 3, 0); (0, 0, 7)].
Proof.
  assert (H : Forall (in_wrapped_bounds (image_coords (Scene.generator 0.5)))
                [(1, -1, -8); (0, -4, 7)]).
  { repeat constructor; simpl; lia. }
  split; [exact H |].
  exact (proj1 (gather_of_normalized_batch (C := SC)
                  (Scene.scene [(1, -1, -8); (0, -4, 7)]) H)).
Defined.

Lemma forward_optimizer_failure_scene :
  forward (C := SC) false (Scene.scene [(5, 3, 7)])
  = (inl (IndexError 5 0 2), Scene.scene [(5, 3, 7)]).
Proof.
  apply (forward_optimizer_failure (C := SC) false (Scene.scene [(5, 3, 7)])
           [(7.5, 3.5)%float] (IndexError 5 0 2) tt); reflexivity.
Defined.


Lemma init_fails_with_image_coords_scene :
  __init__ (C := Broken.collaborators) tt tt None 0%nat
  = (inl (Raised "no cameras"), 1%nat).
Proof.
  apply (proj2 (init_fails_with_image_coords (C := Broken.collaborators)
                  tt tt None 0%nat 1%nat (Raised "no cameras"))).
  reflexivity.
Defined.

Lemma cache_matches_offset_after_calls_scene :
  self (after_calls (C := SC) [([(0, 3, 7)], true); ([(9, 9, 9)], false)]
          (@Build_store SC (Scene.generator 0.5) [] tt))
  = Scene.generator 0.5.
Proof.
  exact (proj1 (cache_matches_offset_after_calls (C := SC) tt tt None tt tt
                  (Scene.generator 0.5) [([(0, 3, 7)], true); ([(9, 9, 9)], false)] []
                  eq_refl)).
Defined.

Lemma forward_after_offset_assignment_scene :
  fst (forward (C := SC) true (with_pixel_offset (Scene.scene [(0, 3, 7)]) 0.25))
  = inr (RaysAndCoords [(0, (7.5, 3.5)%float)] [(7.5, 3.5)%float]).
Proof.
  rewrite (proj2 (proj2 (proj2 (forward_after_offset_assignment (C := SC)
                                  (Scene.scene [(0, 3, 7)]) 0.25)))
             [(7.5, 3.5)%float] [tt] tt tt [(0, (7.5, 3.5)%float)] [(7.75, 3.75)%float]);
    reflexivity.
Defined.


End FurtherChecks.
